(** * Verification of the web frontend's client-side core

    Shallow embedding of the React pages of [src/web/frontend]: the
    dashboard's polling and start/stop handler ([pages/Dashboard.tsx]),
    the settings session ([pages/Settings.tsx]), the synthetic chart
    series ([components/widgets/PortfolioChart.tsx]) and the
    opportunity return formatter ([components/ui/Stat.tsx]).

    React state is modelled as an explicit record; every [setX] call
    of a handler becomes a field update, and an awaited HTTP request
    becomes an explicit [outcome] argument (the promise resolves or
    rejects).  Requests sent to the remote service are returned as a
    list, in issue order. *)

From Stdlib Require Import String Ascii List QArith ZArith Bool Lia.
Import ListNotations.
Open Scope string_scope.

(** ** Types of [src/types] *)
Module Types.

Inductive BotStatus := Stopped | Running | Scanning.

Record PortfolioSummary := {
  total_value : Q; cash_balance : Q; positions_value : Q;
  total_pnl : Q; total_return_pct : Q; realized_pnl : Q;
  unrealized_pnl : Q; num_open_positions : Q; total_trades : Q }.

Record StatusResponse := {
  bot_status : BotStatus;
  mode : string;
  portfolio : PortfolioSummary;
  active_strategies : list string;
  uptime_seconds : Q }.

Inductive EntryType := Scan | Trade | Info | Error.

Record ActivityLogEntry := {
  timestamp : string;
  entry_type : EntryType;
  message : string }.

(** [Record<StrategyType, boolean>]: all four keys always present. *)
Record StrategiesEnabled := {
  fullset : bool; endgame : bool; oracle : bool; rewards : bool }.

(** A JavaScript number: signed zero, nonzero finite value, signed
    infinity, NaN.  A nonzero finite number is kept as its exact
    rational value. *)
Inductive jsnum :=
| JZero (neg : bool)
| JFin (q : Q)
| JInf (neg : bool)
| JNaN.

(** ECMAScript ToBoolean on numbers: [+0], [-0] and [NaN] are falsy. *)
Definition truthy (x : jsnum) : bool :=
  match x with
  | JFin _ | JInf _ => true
  | JZero _ | JNaN => false
  end.

(** [a || b] on numbers. *)
Definition js_or (a b : jsnum) : jsnum := if truthy a then a else b.

Record BotSettings := {
  risk_appetite : jsnum;
  strategies_enabled : StrategiesEnabled;
  max_capital : jsnum }.

Record Opportunity := {
  id : string; name : string; strategy : string;
  edge : jsnum; edge_pct : jsnum;
  annualized_return : option jsnum;
  liquidity : jsnum }.

End Types.
Import Types.

(** Settlement of an awaited promise. *)
Inductive outcome (A : Type) :=
| Resolved (a : A)
| Rejected (err : string).
Arguments Resolved {A} a.
Arguments Rejected {A} err.

(** [Promise.all] over two promises: resolves with both values, or
    rejects as soon as one of them rejects. *)
Definition promise_all2 {A B} (pa : outcome A) (pb : outcome B)
  : outcome (A * B) :=
  match pa, pb with
  | Resolved a, Resolved b => Resolved (a, b)
  | Rejected e, _ => Rejected e
  | _, Rejected e => Rejected e
  end.

(** Requests of [api/client] sent to the remote service. *)
Inductive Request :=
| GetBotStatus
| GetActivityLog (limit : nat)
| StartBot (preset : string)
| StopBot
| GetSettings
| UpdateSettings (body : BotSettings).

(** ** [pages/Dashboard.tsx] *)
Module Dashboard.

Record DashState := {
  status : option StatusResponse;
  opportunities : list Opportunity;
  activity : list ActivityLogEntry;
  loading : bool;
  oppsLoading : bool;
  console : list string }.

Definition initial : DashState :=
  {| status := None; opportunities := []; activity := [];
     loading := true; oppsLoading := false; console := [] |}.

Definition setStatusActivity (s : StatusResponse)
    (a : list ActivityLogEntry) (st : DashState) : DashState :=
  {| status := Some s; opportunities := opportunities st; activity := a;
     loading := loading st; oppsLoading := oppsLoading st;
     console := console st |}.

Definition setLoading (b : bool) (st : DashState) : DashState :=
  {| status := status st; opportunities := opportunities st;
     activity := activity st; loading := b;
     oppsLoading := oppsLoading st; console := console st |}.

Definition logError (msg : string) (st : DashState) : DashState :=
  {| status := status st; opportunities := opportunities st;
     activity := activity st; loading := loading st;
     oppsLoading := oppsLoading st; console := console st ++ [msg] |}.

(** Requests issued by one call of [fetchData]. *)
Definition fetchData_requests : list Request :=
  [GetBotStatus; GetActivityLog 20].

(** [fetchData]: [Promise.all([getBotStatus(), getActivityLog(20)])],
    both setters on success, a log line on failure, and
    [setLoading(false)] in [finally]. *)
Definition fetchData (rs : outcome StatusResponse)
    (ra : outcome (list ActivityLogEntry)) (st : DashState) : DashState :=
  setLoading false
    (match promise_all2 rs ra with
     | Resolved (s, a) => setStatusActivity s a st
     | Rejected e => logError ("Failed to fetch status: " ++ e) st
     end).

(** [status?.bot_status === 'running' || status?.bot_status === 'scanning'] *)
Definition isRunning (s : option StatusResponse) : bool :=
  match s with
  | Some r =>
      match bot_status r with
      | Running | Scanning => true
      | Stopped => false
      end
  | None => false
  end.

(** [handleStartStop]: the command, then (inside the [try], after the
    awaited command) the refresh [fetchData()].  [rc] is the command's
    settlement, [rs] and [ra] those of the refresh's two requests. *)
Definition handleStartStop (st : DashState) (rc : outcome unit)
    (rs : outcome StatusResponse) (ra : outcome (list ActivityLogEntry))
  : list Request * DashState :=
  let cmd := if isRunning (status st) then StopBot else StartBot "balanced" in
  match rc with
  | Resolved _ => (cmd :: fetchData_requests, fetchData rs ra st)
  | Rejected e => ([cmd], logError ("Failed to toggle bot: " ++ e) st)
  end.

(** One poll tick's settlements. *)
Definition Poll : Type :=
  (outcome StatusResponse * outcome (list ActivityLogEntry))%type.

(** A sequence of ticks of the [setInterval(fetchData, 10000)] loop. *)
Fixpoint run_polls (ps : list Poll) (st : DashState) : DashState :=
  match ps with
  | [] => st
  | (rs, ra) :: ps' => run_polls ps' (fetchData rs ra st)
  end.

(** The displayed pair of the last fully successful poll, if any. *)
Fixpoint last_success (ps : list Poll)
  : option (StatusResponse * list ActivityLogEntry) :=
  match ps with
  | [] => None
  | (rs, ra) :: ps' =>
      match last_success ps' with
      | Some p => Some p
      | None =>
          match promise_all2 rs ra with
          | Resolved p => Some p
          | Rejected _ => None
          end
      end
  end.

Definition count_stops (rq : list Request) : nat :=
  length (filter (fun r => match r with StopBot => true | _ => false end) rq).

Definition count_starts (rq : list Request) : nat :=
  length (filter (fun r => match r with StartBot _ => true | _ => false end) rq).

Definition count_start_with (p : string) (rq : list Request) : nat :=
  length (filter (fun r => match r with
                           | StartBot q => String.eqb q p
                           | _ => false end) rq).

End Dashboard.

(** ** [pages/Settings.tsx] *)
Module Settings.

(** *** The builtin [parseFloat]

    [parseFloat] skips leading white space, reads the longest prefix
    that is a StrDecimalLiteral (optional sign, then [Infinity] or
    digits with an optional fraction and exponent) and rounds its value
    to a double; no such prefix gives [NaN].  Rounding is modelled by
    its classification: values at least [2^1024 - 2^970] overflow to
    an infinity, values at most [2^-1075] underflow to a zero, zero
    mantissas give a zero of the literal's sign; any other value is
    kept as its exact decimal value. *)

(** Strings are sequences of 8-bit code units read as Latin-1.  The
    WhiteSpace and LineTerminator characters of ECMAScript in that
    range are U+0009 to U+000D, U+0020 and U+00A0; the others (U+1680,
    U+2000 to U+200A, U+2028, U+2029, U+202F, U+205F, U+3000, U+FEFF)
    lie outside this alphabet. *)
Definition is_ws (c : ascii) : bool :=
  let n := nat_of_ascii c in
  Nat.eqb n 32 || Nat.eqb n 160 || (Nat.leb 9 n && Nat.leb n 13).

Fixpoint trim_start (s : string) : string :=
  match s with
  | String c s' => if is_ws c then trim_start s' else s
  | EmptyString => s
  end.

Definition digit_of (c : ascii) : option nat :=
  let n := nat_of_ascii c in
  if Nat.leb 48 n && Nat.leb n 57 then Some (Nat.sub n 48) else None.

Fixpoint take_digits (s : string) : list nat * string :=
  match s with
  | String c s' =>
      match digit_of c with
      | Some d => let (ds, r) := take_digits s' in (d :: ds, r)
      | None => ([], s)
      end
  | EmptyString => ([], s)
  end.

Definition digits_value (ds : list nat) : Z :=
  fold_left (fun acc d => (acc * 10 + Z.of_nat d)%Z) ds 0%Z.

(** ExponentPart: [e] or [E], an optional sign, at least one digit;
    otherwise no exponent is consumed. *)
Definition parse_exponent (s : string) : Z :=
  match s with
  | String c r =>
      if (c =? "e")%char || (c =? "E")%char then
        let '(sg, r') :=
          match r with
          | String c' r' =>
              if (c' =? "+")%char then (1%Z, r')
              else if (c' =? "-")%char then ((-1)%Z, r')
              else (1%Z, r)
          | EmptyString => (1%Z, r)
          end in
        match take_digits r' with
        | ([], _) => 0%Z
        | (ds, _) => (sg * digits_value ds)%Z
        end
      else 0%Z
  | EmptyString => 0%Z
  end.

Inductive literal := LNone | LInf | LDec (m e : Z).

(** Unsigned part of a StrDecimalLiteral: value [m * 10^e]. *)
Definition parse_unsigned (s : string) : literal :=
  if String.prefix "Infinity" s then LInf else
  let (d1, r1) := take_digits s in
  match r1 with
  | String c r2 =>
      if (c =? ".")%char then
        let (d2, r3) := take_digits r2 in
        match d1, d2 with
        | [], [] => LNone
        | _, _ => LDec (digits_value (d1 ++ d2))
                       (parse_exponent r3 - Z.of_nat (length d2))%Z
        end
      else
        match d1 with
        | [] => LNone
        | _ => LDec (digits_value d1) (parse_exponent r1)
        end
  | EmptyString =>
      match d1 with
      | [] => LNone
      | _ => LDec (digits_value d1) 0
      end
  end.

Definition dec_value (m e : Z) : Q :=
  if (0 <=? e)%Z then inject_Z (m * 10 ^ e)%Z else (m # Z.to_pos (10 ^ (- e))%Z).

Definition overflow_bound : Q := inject_Z (2 ^ 1024 - 2 ^ 970)%Z.
Definition underflow_bound : Q := 1 # Z.to_pos (2 ^ 1075)%Z.

Definition to_double (neg : bool) (m e : Z) : jsnum :=
  if (m =? 0)%Z then JZero neg else
  let q := dec_value m e in
  if Qle_bool overflow_bound q then JInf neg
  else if Qle_bool q underflow_bound then JZero neg
  else JFin (if neg then Qopp q else q).

Definition parseFloat (s : string) : jsnum :=
  let t := trim_start s in
  let '(neg, u) :=
    match t with
    | String c u =>
        if (c =? "-")%char then (true, u)
        else if (c =? "+")%char then (false, u)
        else (false, t)
    | EmptyString => (false, t)
    end in
  match parse_unsigned u with
  | LNone => JNaN
  | LInf => JInf neg
  | LDec m e => to_double neg m e
  end.

(** *** The value of an [<input type="number">]

    The value sanitization algorithm of the number input: a string
    that is not a valid floating-point number (optional [-], digits
    and/or [.] followed by digits, optional exponent [e]/[E] with an
    optional sign and digits, nothing else) becomes the empty string,
    and so does one whose value is not a finite double (browsers parse
    the value and reject an overflow).  [e.target.value] is the
    sanitized value of the typed text. *)

Definition nonempty {A} (l : list A) : bool :=
  match l with [] => false | _ => true end.

Definition valid_exponent (s : string) : bool :=
  match s with
  | EmptyString => true
  | String c r =>
      if (c =? "e")%char || (c =? "E")%char then
        let r' := match r with
                  | String c' r'' =>
                      if (c' =? "+")%char || (c' =? "-")%char then r'' else r
                  | EmptyString => r
                  end in
        let (ds, rest) := take_digits r' in
        nonempty ds && String.eqb rest ""
      else false
  end.

Definition valid_float (s : string) : bool :=
  let s1 := match s with
            | String c r => if (c =? "-")%char then r else s
            | EmptyString => s
            end in
  let (d1, r1) := take_digits s1 in
  match r1 with
  | String c r2 =>
      if (c =? ".")%char then
        let (d2, r3) := take_digits r2 in nonempty d2 && valid_exponent r3
      else nonempty d1 && valid_exponent r1
  | EmptyString => nonempty d1
  end.

Definition is_infinite (x : jsnum) : bool :=
  match x with JInf _ => true | _ => false end.

Definition sanitize_number (typed : string) : string :=
  if valid_float typed && negb (is_infinite (parseFloat typed)) then typed else "".

(** *** Session state *)

Record SettingsState := {
  loading : bool;
  saving : bool;
  settings : BotSettings;
  console : list string;
  navigated : option string }.

(** The [useState] initial draft. *)
Definition default_settings : BotSettings :=
  {| risk_appetite := JFin (1 # 2);
     strategies_enabled :=
       {| fullset := true; endgame := true; oracle := false; rewards := true |};
     max_capital := JFin 1000 |}.

Definition initial : SettingsState :=
  {| loading := true; saving := false; settings := default_settings;
     console := []; navigated := None |}.

Definition setLoading (b : bool) (st : SettingsState) : SettingsState :=
  {| loading := b; saving := saving st; settings := settings st;
     console := console st; navigated := navigated st |}.

Definition setSaving (b : bool) (st : SettingsState) : SettingsState :=
  {| loading := loading st; saving := b; settings := settings st;
     console := console st; navigated := navigated st |}.

Definition setSettings (s : BotSettings) (st : SettingsState) : SettingsState :=
  {| loading := loading st; saving := saving st; settings := s;
     console := console st; navigated := navigated st |}.

Definition logError (msg : string) (st : SettingsState) : SettingsState :=
  {| loading := loading st; saving := saving st; settings := settings st;
     console := console st ++ [msg]; navigated := navigated st |}.

Definition navigate (path : string) (st : SettingsState) : SettingsState :=
  {| loading := loading st; saving := saving st; settings := settings st;
     console := console st; navigated := Some path |}.

(** [loadSettings]: the three fields of the response are copied into
    the draft; a failure only logs; [setLoading(false)] in [finally]. *)
Definition loadSettings (r : outcome BotSettings) (st : SettingsState)
  : list Request * SettingsState :=
  ([GetSettings],
   setLoading false
     (match r with
      | Resolved data =>
          setSettings {| risk_appetite := risk_appetite data;
                         strategies_enabled := strategies_enabled data;
                         max_capital := max_capital data |} st
      | Rejected e => logError ("Failed to load settings: " ++ e) st
      end)).

(** [handleSave]: [updateSettings(settings)], then navigation on
    success; a failure only logs; [setSaving(false)] in [finally]. *)
Definition handleSave (r : outcome BotSettings) (st : SettingsState)
  : list Request * SettingsState :=
  let st1 := setSaving true st in
  ([UpdateSettings (settings st1)],
   setSaving false
     (match r with
      | Resolved _ => navigate "/dashboard" st1
      | Rejected e => logError ("Failed to save settings: " ++ e) st1
      end)).

(** JavaScript [<] between a number and a positive constant. *)
Definition js_lt_const (x : jsnum) (c : Q) : bool :=
  match x with
  | JZero _ => true
  | JFin q => negb (Qle_bool c q)
  | JInf neg => neg
  | JNaN => false
  end.

Definition getRiskLabel (value : jsnum) : string :=
  if js_lt_const value (33 # 100) then "Conservative"
  else if js_lt_const value (66 # 100) then "Balanced"
  else "Aggressive".

(** A real number as a JavaScript number. *)
Definition of_Q (q : Q) : jsnum := if Qeq_bool q 0 then JZero false else JFin q.

(** The Maximum Capital input's [onChange]:
    [max_capital: parseFloat(e.target.value) || 0]. *)
Definition onMaxCapitalChange (v : string) (st : SettingsState) : SettingsState :=
  let s := settings st in
  setSettings {| risk_appetite := risk_appetite s;
                 strategies_enabled := strategies_enabled s;
                 max_capital := js_or (parseFloat v) (JZero false) |} st.

(** What the page renders: [Loading...] while [loading], else the form
    showing the draft. *)
Inductive View := ViewLoading | ViewForm (draft : BotSettings).

Definition view (st : SettingsState) : View :=
  if loading st then ViewLoading else ViewForm (settings st).

End Settings.

(** ** [components/widgets/PortfolioChart.tsx] *)
Module Chart.

(** [i.toString()] for a natural number, in decimal. *)
Fixpoint nat_to_string_aux (fuel n : nat) (acc : string) : string :=
  match fuel with
  | O => acc
  | S f =>
      let acc' := String (ascii_of_nat (48 + Nat.modulo n 10)) acc in
      if Nat.ltb n 10 then acc' else nat_to_string_aux f (Nat.div n 10) acc'
  end.

Definition nat_to_string (n : nat) : string := nat_to_string_aux (S n) n "".

Fixpoint zeros (k : nat) : string :=
  match k with O => "" | S k' => String "0" (zeros k') end.

(** [s.padStart(2, '0')] *)
Definition padStart2 (s : string) : string :=
  zeros (Nat.sub 2 (String.length s)) ++ s.

Definition hour (i : nat) : string := padStart2 (nat_to_string i) ++ ":00".

(** Write [v] at index [k] ([data[k].value = v]); nothing out of range. *)
Fixpoint set_value {N} (k : nat) (v : N) (data : list (string * N))
  : list (string * N) :=
  match data, k with
  | [], _ => []
  | (t, _) :: rest, O => (t, v) :: rest
  | p :: rest, S k' => p :: set_value k' v rest
  end.

Section Generate.

(** JavaScript numbers and the operations [generateMockData] applies
    to them; [rand i] is the [i]-th draw of [Math.random()]. *)
Variable num : Type.
Variables (add mul sub div : num -> num -> num) (math_round : num -> num).
Variables (c0_95 c0_45 c10 c100 : num).
Variable rand : nat -> num.

(** [Math.round(value * 100) / 100] *)
Definition round2 (v : num) : num := div (math_round (mul v c100)) c100.

(** The loop from index [i], [fuel] iterations left, running [value];
    each point is [{ time: hour, value: round2 value }]. *)
Fixpoint gen_loop (i fuel : nat) (value : num) : list (string * num) :=
  match fuel with
  | O => []
  | S f =>
      (hour i, round2 value)
        :: gen_loop (S i) f (add value (mul (sub (rand i) c0_45) c10))
  end.

Definition points : nat := 24.

Definition generateMockData (currentValue : num) : list (string * num) :=
  let data := gen_loop 0 points (mul currentValue c0_95) in
  set_value (Nat.pred (length data)) currentValue data.

End Generate.

Definition hour_labels : list string :=
  ["00:00"; "01:00"; "02:00"; "03:00"; "04:00"; "05:00"; "06:00"; "07:00";
   "08:00"; "09:00"; "10:00"; "11:00"; "12:00"; "13:00"; "14:00"; "15:00";
   "16:00"; "17:00"; "18:00"; "19:00"; "20:00"; "21:00"; "22:00"; "23:00"].

End Chart.

(** ** [components/ui/Stat.tsx], [TopOpportunities] *)
Module Stat.

Section Format.

(** [value.toFixed(1)] *)
Variable toFixed1 : jsnum -> string.

(** [formatReturn]: [undefined] gives ["N/A"]. *)
Definition formatReturn (value : option jsnum) : string :=
  match value with
  | None => "N/A"
  | Some v => toFixed1 v ++ "%"
  end.

(** [o.annualized_return || o.edge_pct]: an absent field is
    [undefined], which is falsy. *)
Definition returnValue (o : Opportunity) : option jsnum :=
  match annualized_return o with
  | Some a => Some (js_or a (edge_pct o))
  | None => Some (edge_pct o)
  end.

Definition displayReturn (o : Opportunity) : string :=
  formatReturn (returnValue o).

(** The fallback chain on field presence, as the spec words it. *)
Definition displayReturn_spec (o : Opportunity) : string :=
  match annualized_return o with
  | Some a => formatReturn (Some a)
  | None => formatReturn (Some (edge_pct o))
  end.

End Format.

End Stat.

(** ** Further parts of [pages/Dashboard.tsx] and its widgets *)
Module DashboardPage.
Import Dashboard.

(** The request of [fetchOpportunities]: [getOpportunities('fullset', { limit: 5 })]. *)
Inductive OppRequest := GetOpportunities (strategy : string) (limit : nat).

Definition setOppsLoading (b : bool) (st : DashState) : DashState :=
  {| status := status st; opportunities := opportunities st;
     activity := activity st; loading := loading st;
     oppsLoading := b; console := console st |}.

Definition setOpportunities (o : list Opportunity) (st : DashState) : DashState :=
  {| status := status st; opportunities := o;
     activity := activity st; loading := loading st;
     oppsLoading := oppsLoading st; console := console st |}.

(** [fetchOpportunities]: [setOppsLoading(true)], the request, the
    setter on success, a log line on failure, [setOppsLoading(false)]
    in [finally]. *)
Definition fetchOpportunities (r : outcome (list Opportunity)) (st : DashState)
  : list OppRequest * DashState :=
  let st1 := setOppsLoading true st in
  ([GetOpportunities "fullset" 5],
   setOppsLoading false
     (match r with
      | Resolved opps => setOpportunities opps st1
      | Rejected e => logError ("Failed to fetch opportunities: " ++ e) st1
      end)).

(** What the page renders: [if (loading || !status)] the loading
    screen, else the main view built from the state. *)
Inductive DashView :=
| DLoading
| DMain (s : StatusResponse) (act : list ActivityLogEntry)
        (opps : list Opportunity) (oppsLoading : bool).

Definition view (st : DashState) : DashView :=
  if loading st then DLoading else
  match status st with
  | None => DLoading
  | Some s => DMain s (activity st) (opportunities st) (oppsLoading st)
  end.

(** The render's [isRunning] and the header button's text. *)
Definition renderIsRunning (s : StatusResponse) : bool :=
  match bot_status s with
  | Running | Scanning => true
  | Stopped => false
  end.

Definition buttonLabel (s : StatusResponse) : string :=
  if renderIsRunning s then "Stop Bot" else "Start Bot".

End DashboardPage.

(** [TopOpportunities] of [components/ui/Stat.tsx]. *)
Module TopOpps.

Inductive OppsView :=
| OScanning
| OEmpty
| ORows (rows : list (string * string * string * string)).

Section Render.

(** [value.toFixed(1)] and the component's [formatLiquidity]. *)
Variable toFixed1 : jsnum -> string.
Variable formatLiquidity : jsnum -> string.

(** One row: name, return, strategy badge, liquidity. *)
Definition row (o : Opportunity) : string * string * string * string :=
  (name o, Stat.displayReturn toFixed1 o, strategy o,
   formatLiquidity (liquidity o) ++ " liq").

Definition topOpportunities (opps : list Opportunity) (loading : bool) : OppsView :=
  if loading then OScanning else
  match opps with
  | [] => OEmpty
  | _ => ORows (map row (firstn 5 opps))
  end.

End Render.

Definition row_name (r : string * string * string * string) : string :=
  fst (fst (fst r)).

End TopOpps.

(** [ActiveStrategies] (strategy labels) and the [STRATEGY_INFO] table. *)
Module StrategyInfo.

Inductive StrategyType := Fullset | Endgame | Oracle | Rewards.

Definition strategy_eqb (a b : StrategyType) : bool :=
  match a, b with
  | Fullset, Fullset | Endgame, Endgame | Oracle, Oracle | Rewards, Rewards => true
  | _, _ => false
  end.

Definition strategy_key (k : StrategyType) : string :=
  match k with
  | Fullset => "fullset" | Endgame => "endgame"
  | Oracle => "oracle" | Rewards => "rewards"
  end.

Definition info_label (k : StrategyType) : string :=
  match k with
  | Fullset => "Full-Set Arbitrage" | Endgame => "Endgame Sweeps"
  | Oracle => "Oracle Timing" | Rewards => "Rewards Farming"
  end.

(** [STRATEGY_INFO[name]?.label]: the four own keys give their label;
    any other string (the prototype's properties included) gives
    [undefined]. *)
Definition lookup_label (s : string) : option string :=
  if String.eqb s "fullset" then Some (info_label Fullset)
  else if String.eqb s "endgame" then Some (info_label Endgame)
  else if String.eqb s "oracle" then Some (info_label Oracle)
  else if String.eqb s "rewards" then Some (info_label Rewards)
  else None.

(** [STRATEGY_INFO[s.name]?.label || s.name] *)
Definition strategyLabel (s : string) : string :=
  match lookup_label s with
  | Some l => if String.eqb l "" then s else l
  | None => s
  end.

End StrategyInfo.

(** Further parts of [pages/Settings.tsx]. *)
Module SettingsPage.
Import Settings StrategyInfo.

Definition get_enabled (se : StrategiesEnabled) (k : StrategyType) : bool :=
  match k with
  | Fullset => fullset se | Endgame => endgame se
  | Oracle => oracle se | Rewards => rewards se
  end.

(** [{ ...s.strategies_enabled, [key]: checked }] *)
Definition set_enabled (se : StrategiesEnabled) (k : StrategyType) (b : bool)
  : StrategiesEnabled :=
  match k with
  | Fullset => {| fullset := b; endgame := endgame se; oracle := oracle se; rewards := rewards se |}
  | Endgame => {| fullset := fullset se; endgame := b; oracle := oracle se; rewards := rewards se |}
  | Oracle => {| fullset := fullset se; endgame := endgame se; oracle := b; rewards := rewards se |}
  | Rewards => {| fullset := fullset se; endgame := endgame se; oracle := oracle se; rewards := b |}
  end.

(** A strategy [Toggle]'s [onChange]. *)
Definition onStrategyToggle (k : StrategyType) (checked : bool) (st : SettingsState)
  : SettingsState :=
  let s := settings st in
  setSettings {| risk_appetite := risk_appetite s;
                 strategies_enabled := set_enabled (strategies_enabled s) k checked;
                 max_capital := max_capital s |} st.

(** The risk [Slider]'s [onChange]: the range input (min 0, max 100,
    step 1) reports an integer position [v], and the draft receives
    [v / 100].  The quotient is kept as the exact rational [v/100]: the
    double nearest to it compares with the double literals [0.33] and
    [0.66] as the exact values do. *)
Definition onSliderChange (v : nat) (st : SettingsState) : SettingsState :=
  let s := settings st in
  setSettings {| risk_appetite := of_Q (Z.of_nat v # 100);
                 strategies_enabled := strategies_enabled s;
                 max_capital := max_capital s |} st.

(** A number in the closed unit interval. *)
Definition in_unit (x : jsnum) : Prop :=
  match x with
  | JZero _ => True
  | JFin q => (0 <= q <= 1)%Q
  | _ => False
  end.

End SettingsPage.

(** [pages/StrategySelect.tsx] and [STRATEGY_PRESETS]. *)
Module StrategySelect.
Import StrategyInfo.

Record StrategyPreset := {
  preset_id : string; preset_name : string; description : string;
  expectedReturn : string; preset_strategies : list StrategyType }.

Definition STRATEGY_PRESETS : list StrategyPreset :=
  [ {| preset_id := "safe"; preset_name := "Safe & Steady";
       description := "Focus on endgame sweeps and holding rewards";
       expectedReturn := "15-25%"; preset_strategies := [Endgame; Rewards] |};
    {| preset_id := "balanced"; preset_name := "Balanced Growth";
       description := "Mix of all strategies with moderate risk";
       expectedReturn := "25-50%"; preset_strategies := [Fullset; Endgame; Rewards] |};
    {| preset_id := "aggressive"; preset_name := "High Yield";
       description := "Focus on arbitrage with higher risk tolerance";
       expectedReturn := "50-100%+"; preset_strategies := [Fullset; Endgame; Oracle] |} ].

Record SelectState := {
  selected : string;
  starting : bool;
  navigated : option string;
  console : list string }.

Definition initial : SelectState :=
  {| selected := "balanced"; starting := false; navigated := None; console := [] |}.

(** A preset card's [onClick]: [setSelected(preset.id)]. *)
Definition clickPreset (p : StrategyPreset) (st : SelectState) : SelectState :=
  {| selected := preset_id p; starting := starting st;
     navigated := navigated st; console := console st |}.

Fixpoint run_clicks (ps : list StrategyPreset) (st : SelectState) : SelectState :=
  match ps with
  | [] => st
  | p :: ps' => run_clicks ps' (clickPreset p st)
  end.

Definition setStarting (b : bool) (st : SelectState) : SelectState :=
  {| selected := selected st; starting := b;
     navigated := navigated st; console := console st |}.

(** [handleStart]: [setStarting(true)], [startBot(selected)], then
    navigation on success; on failure a log line and
    [setStarting(false)] (there is no [finally]). *)
Definition handleStart (r : outcome unit) (st : SelectState)
  : list Request * SelectState :=
  let st1 := setStarting true st in
  ([StartBot (selected st1)],
   match r with
   | Resolved _ =>
       {| selected := selected st1; starting := starting st1;
          navigated := Some "/dashboard"; console := console st1 |}
   | Rejected e =>
       setStarting false
         {| selected := selected st1; starting := starting st1;
            navigated := navigated st1;
            console := console st1 ++ ["Failed to start bot: " ++ e] |}
   end).

End StrategySelect.

(** [PortfolioChart]: the data choice and the Total P&L colour. *)
Module ChartPage.

(** [Stat]'s [valueColor]. *)
Definition valueColor (positive negative : bool) : string :=
  if positive then "text-profit"
  else if negative then "text-loss"
  else "text-text-primary".

(** [positive={total_pnl >= 0}], [negative={total_pnl < 0}]; the value
    comes from JSON, so it is a finite number. *)
Definition pnlColor (x : Q) : string :=
  valueColor (Qle_bool 0 x) (negb (Qle_bool 0 x)).

Section Data.
Variable num : Type.
Variables (add mul sub div : num -> num -> num) (math_round : num -> num).
Variables (c0_95 c0_45 c10 c100 : num).
Variable rand : nat -> num.

(** [chartData.length > 0 ? chartData : generateMockData(portfolio.total_value)] *)
Definition chartSeries (chartData : list (string * num)) (total_value : num)
  : list (string * num) :=
  if Nat.ltb 0 (length chartData) then chartData
  else Chart.generateMockData num add mul sub div math_round
         c0_95 c0_45 c10 c100 rand total_value.
End Data.

End ChartPage.

(** ** Concrete inputs *)
Module Samples.

Definition portfolio0 : PortfolioSummary :=
  {| total_value := 1000; cash_balance := 1000; positions_value := 0;
     total_pnl := 0; total_return_pct := 0; realized_pnl := 0;
     unrealized_pnl := 0; num_open_positions := 0; total_trades := 0 |}.

Definition status_of (b : BotStatus) : StatusResponse :=
  {| bot_status := b; mode := "paper"; portfolio := portfolio0;
     active_strategies := ["fullset"]; uptime_seconds := 0 |}.

Definition entry1 : ActivityLogEntry :=
  {| timestamp := "2026-01-01T00:00:00Z"; entry_type := Scan;
     message := "Scanned 120 markets" |}.

Definition entry2 : ActivityLogEntry :=
  {| timestamp := "2026-01-01T00:00:10Z"; entry_type := Trade;
     message := "Bought full set" |}.

(** The dashboard after a first successful poll showing [b]. *)
Definition dash_after (b : BotStatus) : Dashboard.DashState :=
  Dashboard.fetchData (Resolved (status_of b)) (Resolved [entry1])
    Dashboard.initial.

Definition remote_settings : BotSettings :=
  {| risk_appetite := JFin (8 # 10);
     strategies_enabled :=
       {| fullset := false; endgame := true; oracle := true; rewards := false |};
     max_capital := JFin 250 |}.

Definition opp_zero_return : Opportunity :=
  {| id := "m1"; name := "Will it rain?"; strategy := "fullset";
     edge := JFin (5 # 100); edge_pct := JFin 5;
     annualized_return := Some (JZero false); liquidity := JFin 1500 |}.

End Samples.

(** * Theorems *)

Import Dashboard.
Open Scope nat_scope.

(** What one [fetchData] call leaves displayed. *)
Lemma fetchData_display (rs : outcome StatusResponse)
    (ra : outcome (list ActivityLogEntry)) (st : DashState) :
  (status (fetchData rs ra st), activity (fetchData rs ra st)) =
  match promise_all2 rs ra with
  | Resolved (s, a) => (Some s, a)
  | Rejected _ => (status st, activity st)
  end.
Proof. destruct rs, ra; reflexivity. Qed.

(** C1 (claim as stated, refuted): the status fetch fails and the
    activity fetch succeeds with [[entry1]]; the new activity list is
    not applied. *)
Lemma C1_activity_discarded :
  let st := Samples.dash_after Running in
  let st' := fetchData (Rejected "Network Error") (Resolved [Samples.entry2]) st in
  activity st' <> [Samples.entry2] /\ activity st' = activity st.
Proof. simpl. split; [discriminate | reflexivity]. Qed.

(** C1 (amended): status and activity of one poll fail together: when
    either fetch fails, neither half is updated (a successful half is
    discarded); when both succeed, both halves are replaced. *)
Theorem fetchData_joined_failure (rs : outcome StatusResponse)
    (ra : outcome (list ActivityLogEntry)) (st : DashState) :
  match rs, ra with
  | Resolved s, Resolved a =>
      status (fetchData rs ra st) = Some s /\ activity (fetchData rs ra st) = a
  | _, _ =>
      status (fetchData rs ra st) = status st /\
      activity (fetchData rs ra st) = activity st
  end.
Proof.
  destruct rs, ra; split; reflexivity.
Qed.

(** C9: over any sequence of poll ticks, the displayed status and
    activity are those of the last fully successful tick, and the
    initially displayed ones when no tick succeeded: a failing tick
    never clears or changes them, a successful tick replaces both. *)
Theorem run_polls_last_success (ps : list Poll) (st : DashState) :
  (status (run_polls ps st), activity (run_polls ps st)) =
  match last_success ps with
  | Some (s, a) => (Some s, a)
  | None => (status st, activity st)
  end.
Proof.
  revert st; induction ps as [| [rs ra] ps IH]; intro st; [reflexivity |].
  simpl. rewrite IH, fetchData_display.
  destruct (last_success ps) as [[s a] |]; [reflexivity |].
  destruct (promise_all2 rs ra) as [[s a] | e]; reflexivity.
Qed.

(** C3 (claim as stated, refuted): with the bot stopped and the preset
    ["safe"] selected, the toggle does not start ["safe"]. *)
Lemma C3_start_ignores_selected_preset :
  let rq := fst (handleStartStop (Samples.dash_after Stopped) (Resolved tt)
                   (Resolved (Samples.status_of Running)) (Resolved [])) in
  ~ (count_stops rq = 0 /\ count_start_with "safe" rq = 1).
Proof. simpl. intros [_ H]. discriminate H. Qed.

(** C3 (amended): the toggle issues exactly one stop command and no
    start command when the displayed status is Running or Scanning;
    otherwise (also before any status is loaded) exactly one start
    command, carrying the fixed preset ["balanced"], and no stop
    command. *)
Theorem handleStartStop_commands (st : DashState) (rc : outcome unit)
    (rs : outcome StatusResponse) (ra : outcome (list ActivityLogEntry)) :
  let rq := fst (handleStartStop st rc rs ra) in
  match status st with
  | Some r =>
      match bot_status r with
      | Running | Scanning => count_stops rq = 1 /\ count_starts rq = 0
      | Stopped =>
          count_stops rq = 0 /\ count_starts rq = 1 /\
          count_start_with "balanced" rq = 1
      end
  | None =>
      count_stops rq = 0 /\ count_starts rq = 1 /\
      count_start_with "balanced" rq = 1
  end.
Proof.
  unfold handleStartStop, isRunning.
  destruct (status st) as [r |]; [destruct (bot_status r) |];
    destruct rc; simpl; repeat split.
Qed.

(** C4 (claim as stated, refuted): when the stop command fails, no
    status refresh is issued. *)
Lemma C4_no_refresh_on_failure :
  let rq := fst (handleStartStop (Samples.dash_after Running)
                   (Rejected "Request failed with status code 500")
                   (Resolved (Samples.status_of Stopped)) (Resolved [])) in
  ~ In GetBotStatus rq.
Proof. simpl. intros [H | []]. discriminate H. Qed.

(** C4 (amended): after a successful start or stop command the handler
    re-polls (the requests after the command are exactly those of
    [fetchData], and the state is the refresh's result); after a failed
    command nothing is re-polled and the displayed status and activity
    stay as they were.  In both cases no status is set from the
    command: the displayed status is the previous one or the one the
    status fetch returned. *)
Theorem handleStartStop_refresh (st : DashState) (rc : outcome unit)
    (rs : outcome StatusResponse) (ra : outcome (list ActivityLogEntry)) :
  let '(rq, st') := handleStartStop st rc rs ra in
  match rc with
  | Resolved _ => tl rq = fetchData_requests /\ st' = fetchData rs ra st
  | Rejected _ =>
      length rq = 1 /\ status st' = status st /\ activity st' = activity st
  end /\
  (status st' = status st \/ exists s, rs = Resolved s /\ status st' = Some s).
Proof.
  unfold handleStartStop.
  destruct rc as [u | e].
  - split; [split; reflexivity |].
    destruct rs as [s | e1], ra as [a | e2].
    + right. exists s. split; reflexivity.
    + left; reflexivity.
    + left; reflexivity.
    + left; reflexivity.
  - split; [repeat split | left; reflexivity].
Qed.

Import Settings.
Open Scope Q_scope.

(** C5 (claim as stated, refuted): when the first load fails, the page
    leaves its loading state and renders the locally defaulted draft. *)
Lemma C5_default_draft_presented :
  view (snd (loadSettings (Rejected "Network Error") Settings.initial)) =
  ViewForm default_settings.
Proof. reflexivity. Qed.

(** C5 (amended): a failed load ends loading, keeps the draft as it was
    (on page load, the default draft: risk 0.5, fullset, endgame and
    rewards on, oracle off, max capital 1000) and renders that draft in
    the form; there is no failed-to-load state, the error is only
    logged. *)
Theorem loadSettings_failure_keeps_draft (e : string) (st : SettingsState) :
  let st' := snd (loadSettings (Rejected e) st) in
  Settings.loading st' = false /\ settings st' = settings st /\
  view st' = ViewForm (settings st) /\
  Settings.console st' = app (Settings.console st) ["Failed to load settings: " ++ e] /\
  view (snd (loadSettings (Rejected e) Settings.initial)) =
    ViewForm {| risk_appetite := JFin (1 # 2);
                strategies_enabled := {| fullset := true; endgame := true;
                                         oracle := false; rewards := true |};
                max_capital := JFin 1000 |}.
Proof. repeat split. Qed.

(** C6: [handleSave] sends the whole draft; saving right after a
    successful load sends exactly the loaded settings; a failed save
    leaves the draft unchanged. *)
Theorem handleSave_roundtrip (data : BotSettings) (st : SettingsState)
    (r : outcome BotSettings) :
  fst (handleSave r st) = [UpdateSettings (settings st)] /\
  fst (handleSave r (snd (loadSettings (Resolved data) st))) =
    [UpdateSettings data] /\
  (forall e, settings (snd (handleSave (Rejected e) st)) = settings st).
Proof.
  split; [reflexivity |]. split; [destruct data; reflexivity |].
  intro e. reflexivity.
Qed.

(** [<] against a positive constant on a real number. *)
Lemma js_lt_const_of_Q (q c : Q) :
  0 < c -> (js_lt_const (of_Q q) c = true <-> q < c).
Proof.
  intro Hc. unfold of_Q.
  destruct (Qeq_bool q 0) eqn:E.
  - apply Qeq_bool_iff in E. simpl. split; [intros _ | reflexivity].
    rewrite E. exact Hc.
  - simpl. rewrite negb_true_iff. split.
    + intro H. apply Qnot_le_lt. intro H'.
      apply Qle_bool_iff in H'. congruence.
    + intro H. destruct (Qle_bool c q) eqn:E2; [| reflexivity].
      apply Qle_bool_iff in E2. exfalso. apply (Qlt_not_le _ _ H E2).
Qed.

(** C8: three half-open bands; 0.33 and 0.66 belong to the upper band. *)
Theorem riskLabel_bands (q : Q) :
  (q < 33 # 100 -> getRiskLabel (of_Q q) = "Conservative") /\
  (33 # 100 <= q -> q < 66 # 100 -> getRiskLabel (of_Q q) = "Balanced") /\
  (66 # 100 <= q -> getRiskLabel (of_Q q) = "Aggressive") /\
  getRiskLabel (of_Q 0) = "Conservative" /\
  getRiskLabel (of_Q (33 # 100)) = "Balanced" /\
  getRiskLabel (of_Q (66 # 100)) = "Aggressive" /\
  getRiskLabel (of_Q 1) = "Aggressive".
Proof.
  assert (H33 : (0 < 33 # 100)%Q) by reflexivity.
  assert (H66 : (0 < 66 # 100)%Q) by reflexivity.
  unfold getRiskLabel.
  split; [| split; [| split]].
  - intro H. apply (js_lt_const_of_Q q _ H33) in H. rewrite H. reflexivity.
  - intros H1 H2.
    destruct (js_lt_const (of_Q q) (33 # 100)) eqn:E.
    + apply (js_lt_const_of_Q q _ H33) in E.
      exfalso. apply (Qlt_not_le _ _ E H1).
    + apply (js_lt_const_of_Q q _ H66) in H2. rewrite H2. reflexivity.
  - intro H.
    destruct (js_lt_const (of_Q q) (33 # 100)) eqn:E.
    + apply (js_lt_const_of_Q q _ H33) in E. exfalso.
      apply (Qlt_not_le _ _ E). apply (Qle_trans _ (66 # 100)); [discriminate | exact H].
    + destruct (js_lt_const (of_Q q) (66 # 100)) eqn:E2; [| reflexivity].
      apply (js_lt_const_of_Q q _ H66) in E2. exfalso. apply (Qlt_not_le _ _ E2 H).
  - repeat split.
Qed.

(** Witness: the three bands at 0.1, 0.5 and 0.9. *)
Lemma riskLabel_bands_witness :
  getRiskLabel (of_Q (1 # 10)) = "Conservative" /\
  getRiskLabel (of_Q (1 # 2)) = "Balanced" /\
  getRiskLabel (of_Q (9 # 10)) = "Aggressive".
Proof.
  split; [| split].
  - apply (proj1 (riskLabel_bands (1 # 10))). reflexivity.
  - apply (proj1 (proj2 (riskLabel_bands (1 # 2)))); [discriminate | reflexivity].
  - apply (proj1 (proj2 (proj2 (riskLabel_bands (9 # 10))))). discriminate.
Defined.

(** C10: for every text typed into the Maximum Capital number input,
    [max_capital] becomes a real number, never NaN nor infinite: the
    value [parseFloat] gives for the input's value when that is a
    nonzero finite number (a negative one as typed, unclamped), and 0
    otherwise (empty, non-numeric or zero input); the rest of the draft
    is unchanged. *)
Theorem onMaxCapitalChange_value (typed : string) (st : SettingsState) :
  let v := sanitize_number typed in
  let m := max_capital (settings (onMaxCapitalChange v st)) in
  m <> JNaN /\ (forall neg, m <> JInf neg) /\
  (match parseFloat v with
   | JFin q => m = JFin q
   | _ => m = JZero false
   end) /\
  risk_appetite (settings (onMaxCapitalChange v st)) = risk_appetite (settings st) /\
  strategies_enabled (settings (onMaxCapitalChange v st)) =
    strategies_enabled (settings st).
Proof.
  assert (Hfin : is_infinite (parseFloat (sanitize_number typed)) = false).
  { unfold sanitize_number.
    destruct (valid_float typed && negb (is_infinite (parseFloat typed))) eqn:E.
    - apply andb_true_iff in E. destruct E as [_ E].
      apply negb_true_iff in E. exact E.
    - reflexivity. }
  simpl. unfold js_or.
  destruct (parseFloat (sanitize_number typed)); simpl in *;
    try discriminate Hfin; repeat split; try discriminate;
    intros neg H; discriminate H.
Qed.

Import Chart.
Open Scope nat_scope.

Section ChartProofs.

Variable num : Type.
Variables (add mul sub div : num -> num -> num) (math_round : num -> num).
Variables (c0_95 c0_45 c10 c100 : num).
Variable rand : nat -> num.

Lemma gen_loop_length (i n : nat) (v : num) :
  length (gen_loop num add mul sub div math_round c0_45 c10 c100 rand i n v) = n.
Proof.
  revert i v; induction n as [| n IH]; intros i v; [reflexivity |].
  simpl. rewrite IH. reflexivity.
Qed.

Lemma gen_loop_rounded (i n : nat) (v : num) :
  Forall (fun p => exists x, snd p = round2 num mul div math_round c100 x)
    (gen_loop num add mul sub div math_round c0_45 c10 c100 rand i n v).
Proof.
  revert i v; induction n as [| n IH]; intros i v; simpl; constructor.
  - exists v. reflexivity.
  - apply IH.
Qed.

End ChartProofs.

Lemma set_value_length {N} (k : nat) (v : N) (data : list (string * N)) :
  length (set_value k v data) = length data.
Proof.
  revert k; induction data as [| [t x] data IH]; intro k; [destruct k; reflexivity |].
  destruct k; simpl; [reflexivity | rewrite IH; reflexivity].
Qed.

Lemma set_value_firstn {N} (k : nat) (v : N) (data : list (string * N)) :
  firstn k (set_value k v data) = firstn k data.
Proof.
  revert k; induction data as [| [t x] data IH]; intro k; [destruct k; reflexivity |].
  destruct k; simpl; [reflexivity | rewrite IH; reflexivity].
Qed.

(** C2: for every input value [V] (and every sequence of random
    draws), the series has 24 points labelled ["00:00"] to ["23:00"];
    the first value is [Math.round(V * 0.95 * 100) / 100]; the last
    value is [V] itself; every other value is the output of the two
    decimal rounding [Math.round(x * 100) / 100]. *)
Theorem generateMockData_shape (num : Type)
    (add mul sub div : num -> num -> num) (math_round : num -> num)
    (c0_95 c0_45 c10 c100 : num) (rand : nat -> num) (V : num) :
  let data := generateMockData num add mul sub div math_round
                c0_95 c0_45 c10 c100 rand V in
  length data = 24 /\
  map fst data = hour_labels /\
  nth_error (map snd data) 0 =
    Some (round2 num mul div math_round c100 (mul V c0_95)) /\
  nth_error (map snd data) 23 = Some V /\
  Forall (fun p => exists x, snd p = round2 num mul div math_round c100 x)
    (firstn 23 data).
Proof.
  unfold generateMockData. rewrite gen_loop_length. simpl Nat.pred.
  split; [rewrite set_value_length, gen_loop_length; reflexivity |].
  split; [reflexivity |].
  split; [reflexivity |].
  split; [reflexivity |].
  rewrite set_value_firstn.
  match goal with |- Forall _ (firstn 23 ?l) =>
    pose proof (gen_loop_rounded num add mul sub div math_round c0_45 c10 c100
                  rand 0 points (mul V c0_95)) as H;
    rewrite <- (firstn_skipn 23 l) in H;
    apply Forall_app in H; exact (proj1 H)
  end.
Qed.

Import Stat.

(** C7 (code evaluated at a failing input): with [annualized_return]
    present and equal to 0 and [edge_pct] 5, the code formats
    [edge_pct] (the [||] treats 0 as absent), while the presence-based
    fallback formats [annualized_return]. *)
Theorem displayReturn_zero_annualized (toFixed1 : jsnum -> string) :
  displayReturn toFixed1 Samples.opp_zero_return = toFixed1 (JFin 5) ++ "%" /\
  displayReturn_spec toFixed1 Samples.opp_zero_return =
    toFixed1 (JZero false) ++ "%".
Proof. split; reflexivity. Qed.

(** * Further properties of the pages *)

Import DashboardPage.

(** [fetchOpportunities] sends one request for the first five
    ["fullset"] opportunities, ends with [oppsLoading] false, replaces
    the list only on success, and never touches the polled status,
    activity or the page's [loading] flag. *)
Theorem fetchOpportunities_effect (r : outcome (list Opportunity)) (st : DashState) :
  let '(rq, st') := fetchOpportunities r st in
  rq = [GetOpportunities "fullset" 5] /\
  oppsLoading st' = false /\
  opportunities st' = match r with
                      | Resolved opps => opps
                      | Rejected _ => opportunities st
                      end /\
  status st' = status st /\ activity st' = activity st /\ Dashboard.loading st' = Dashboard.loading st.
Proof. destruct r; repeat split. Qed.

Lemma run_polls_loading (ps : list Poll) (st : DashState) :
  Dashboard.loading (run_polls ps st) =
  match ps with [] => Dashboard.loading st | _ => false end.
Proof.
  revert st; induction ps as [| [rs ra] ps IH]; intro st; [reflexivity |].
  simpl. rewrite IH. destruct ps; [| reflexivity].
  destruct rs, ra; reflexivity.
Qed.

Lemma run_polls_status (ps : list Poll) (st : DashState) :
  status (run_polls ps st) =
  match last_success ps with
  | Some (s, _) => Some s
  | None => status st
  end.
Proof.
  revert st; induction ps as [| [rs ra] ps IH]; intro st; [reflexivity |].
  simpl. rewrite IH.
  destruct (last_success ps) as [[s a] |]; [reflexivity |].
  destruct rs, ra; reflexivity.
Qed.

(** From page load, the dashboard shows its loading screen exactly as
    long as no poll has fully succeeded: failing polls keep it there
    even after [loading] turns false, and the first successful poll
    replaces it by the main view. *)
Theorem dashboard_loading_screen (ps : list Poll) :
  DashboardPage.view (run_polls ps Dashboard.initial) = DLoading <-> last_success ps = None.
Proof.
  unfold DashboardPage.view. rewrite run_polls_loading, run_polls_status.
  destruct ps as [| p ps']; [simpl; split; reflexivity |].
  destruct (last_success (p :: ps')) as [[s a] |]; simpl.
  - split; discriminate.
  - split; reflexivity.
Qed.

(** Once the main view shows a status, the header button's text
    matches what a click does: ["Stop Bot"] sends stop, ["Start Bot"]
    sends start. *)
Theorem button_label_matches_action (st : DashState) (s : StatusResponse)
    (rc : outcome unit) (rs : outcome StatusResponse)
    (ra : outcome (list ActivityLogEntry)) :
  status st = Some s ->
  let rq := fst (handleStartStop st rc rs ra) in
  (buttonLabel s = "Stop Bot" /\ hd_error rq = Some StopBot) \/
  (buttonLabel s = "Start Bot" /\ hd_error rq = Some (StartBot "balanced")).
Proof.
  intro H. unfold handleStartStop, buttonLabel, renderIsRunning. rewrite H.
  simpl. destruct (bot_status s); destruct rc; simpl; auto.
Qed.

Lemma button_label_matches_action_witness :
  let st := Samples.dash_after Scanning in
  buttonLabel (Samples.status_of Scanning) = "Stop Bot" /\
  hd_error (fst (handleStartStop st (Resolved tt)
                   (Resolved (Samples.status_of Stopped)) (Resolved [])))
    = Some StopBot.
Proof.
  destruct (button_label_matches_action (Samples.dash_after Scanning)
              (Samples.status_of Scanning) (Resolved tt)
              (Resolved (Samples.status_of Stopped)) (Resolved []) eq_refl)
    as [H | [H _]]; [exact H | discriminate H].
Defined.

Import TopOpps.

(** [TopOpportunities]: while loading it shows the scanning message;
    an empty list shows the empty message; otherwise at most five rows,
    the first five opportunities in the backend's order, unsorted. *)
Theorem topOpportunities_rows (toFixed1 fmtLiq : jsnum -> string)
    (opps : list Opportunity) (ld : bool) :
  match topOpportunities toFixed1 fmtLiq opps ld with
  | OScanning => ld = true
  | OEmpty => ld = false /\ opps = []
  | ORows rows =>
      ld = false /\ opps <> [] /\
      length rows = Nat.min 5 (length opps) /\
      map row_name rows = map name (firstn 5 opps)
  end.
Proof.
  unfold topOpportunities. destruct ld; [reflexivity |].
  destruct opps as [| o os]; [split; reflexivity |].
  split; [reflexivity |]. split; [discriminate |]. split.
  - rewrite length_map, length_firstn. reflexivity.
  - rewrite map_map. reflexivity.
Qed.

Import StrategyInfo.

(** Each of the four strategy keys is shown by its [STRATEGY_INFO]
    label, and a name is shown verbatim exactly when it is not one of
    the four keys. *)
Theorem strategyLabel_fallback (s : string) :
  (forall k, strategyLabel (strategy_key k) = info_label k) /\
  (strategyLabel s = s <-> ~ In s ["fullset"; "endgame"; "oracle"; "rewards"]).
Proof.
  split; [intro k; destruct k; reflexivity |].
  unfold strategyLabel, lookup_label.
  destruct (String.eqb s "fullset") eqn:E1;
    [apply String.eqb_eq in E1; subst; simpl; split; [discriminate | intro H; exfalso; auto] |].
  destruct (String.eqb s "endgame") eqn:E2;
    [apply String.eqb_eq in E2; subst; simpl; split; [discriminate | intro H; exfalso; auto] |].
  destruct (String.eqb s "oracle") eqn:E3;
    [apply String.eqb_eq in E3; subst; simpl; split; [discriminate | intro H; exfalso; auto] |].
  destruct (String.eqb s "rewards") eqn:E4;
    [apply String.eqb_eq in E4; subst; simpl; split; [discriminate | intro H; exfalso; auto 6] |].
  apply String.eqb_neq in E1, E2, E3, E4.
  split; [intros _ | reflexivity].
  simpl. intros [H | [H | [H | [H | []]]]]; subst; auto.
Qed.

Import SettingsPage.

(** A strategy toggle sets exactly that strategy's flag in the draft;
    the other three flags, the risk appetite and the maximum capital
    are unchanged, and nothing is sent to the server. *)
Theorem strategyToggle_effect (k : StrategyType) (b : bool) (st : SettingsState) :
  let st' := onStrategyToggle k b st in
  (forall k', get_enabled (strategies_enabled (settings st')) k' =
              if strategy_eqb k' k then b
              else get_enabled (strategies_enabled (settings st)) k') /\
  risk_appetite (settings st') = risk_appetite (settings st) /\
  max_capital (settings st') = max_capital (settings st) /\
  Settings.loading st' = Settings.loading st /\
  Settings.navigated st' = Settings.navigated st.
Proof.
  simpl. split; [| repeat split].
  intro k'. destruct k, k'; reflexivity.
Qed.

(** Moving the risk slider to position [k] (0 to 100) stores a risk
    appetite in [0, 1] whose label is Conservative below 33, Balanced
    from 33 to 65 and Aggressive from 66 on. *)
Theorem slider_risk_label (k : nat) (st : SettingsState) :
  (k <= 100)%nat ->
  let r := risk_appetite (settings (onSliderChange k st)) in
  in_unit r /\
  getRiskLabel r =
    if Nat.ltb k 33 then "Conservative"
    else if Nat.ltb k 66 then "Balanced" else "Aggressive".
Proof.
  intros Hk. simpl.
  assert (H33 : (0 < 33 # 100)%Q) by reflexivity.
  assert (H66 : (0 < 66 # 100)%Q) by reflexivity.
  set (q := (Z.of_nat k # 100)%Q).
  split.
  - unfold of_Q. destruct (Qeq_bool q 0); simpl; [exact I |].
    unfold q, Qle; simpl. lia.
  - unfold getRiskLabel.
    destruct (Nat.ltb k 33) eqn:E1.
    + apply Nat.ltb_lt in E1.
      assert (H : js_lt_const (of_Q q) (33 # 100) = true)
        by (apply (js_lt_const_of_Q q _ H33); unfold q, Qlt; simpl; lia).
      rewrite H. reflexivity.
    + apply Nat.ltb_ge in E1.
      destruct (js_lt_const (of_Q q) (33 # 100)) eqn:F1.
      { apply (js_lt_const_of_Q q _ H33) in F1. unfold q, Qlt in F1; simpl in F1. lia. }
      destruct (Nat.ltb k 66) eqn:E2.
      * apply Nat.ltb_lt in E2.
        assert (H : js_lt_const (of_Q q) (66 # 100) = true)
          by (apply (js_lt_const_of_Q q _ H66); unfold q, Qlt; simpl; lia).
        rewrite H. reflexivity.
      * apply Nat.ltb_ge in E2.
        destruct (js_lt_const (of_Q q) (66 # 100)) eqn:F2; [| reflexivity].
        apply (js_lt_const_of_Q q _ H66) in F2. unfold q, Qlt in F2; simpl in F2. lia.
Qed.

Lemma slider_risk_label_witness :
  getRiskLabel (risk_appetite (settings (onSliderChange 50 Settings.initial)))
    = "Balanced".
Proof. exact (proj2 (slider_risk_label 50 Settings.initial ltac:(lia))). Defined.

(** [handleSave] always ends with [saving] false; it navigates to the
    dashboard exactly when the save succeeds, and a failed save stays
    on the page. *)
Theorem handleSave_navigation (r : outcome BotSettings) (st : SettingsState) :
  let st' := snd (handleSave r st) in
  Settings.saving st' = false /\
  Settings.navigated st' = match r with
                           | Resolved _ => Some "/dashboard"
                           | Rejected _ => Settings.navigated st
                           end.
Proof. destruct r; split; reflexivity. Qed.

(** After a successful load the page leaves its loading state and the
    form shows exactly the settings the server returned. *)
Theorem loadSettings_success_view (data : BotSettings) (st : SettingsState) :
  Settings.view (snd (loadSettings (Resolved data) st)) = ViewForm data.
Proof. destruct data; reflexivity. Qed.

Import StrategySelect.

Lemma run_clicks_selected (cs : list StrategyPreset) (st : SelectState) :
  Forall (fun p => In p STRATEGY_PRESETS) cs ->
  In (selected st) (map preset_id STRATEGY_PRESETS) ->
  In (selected (run_clicks cs st)) (map preset_id STRATEGY_PRESETS).
Proof.
  revert st; induction cs as [| p cs IH]; intros st Hcs Hst; [exact Hst |].
  inversion Hcs as [| ? ? Hp Hrest]; subst.
  cbn [run_clicks]. apply IH; [exact Hrest |].
  exact (in_map preset_id _ _ Hp).
Qed.

(** After any sequence of clicks on the preset cards, the selection is
    one of the preset ids ["safe"], ["balanced"], ["aggressive"] (it
    starts as ["balanced"]), and Start sends exactly that preset. *)
Theorem selected_is_preset (cs : list StrategyPreset) (r : outcome unit) :
  Forall (fun p => In p STRATEGY_PRESETS) cs ->
  let st := run_clicks cs StrategySelect.initial in
  In (selected st) ["safe"; "balanced"; "aggressive"] /\
  fst (handleStart r st) = [StartBot (selected st)].
Proof.
  intros H. split; [| reflexivity].
  apply (run_clicks_selected cs StrategySelect.initial H). simpl; auto.
Qed.

Lemma selected_is_preset_witness :
  In (selected (run_clicks STRATEGY_PRESETS StrategySelect.initial))
     ["safe"; "balanced"; "aggressive"].
Proof.
  apply (selected_is_preset STRATEGY_PRESETS (Resolved tt)).
  apply Forall_forall. intros x Hx. exact Hx.
Defined.

(** [handleStart] on the strategy page: on success it navigates to the
    dashboard and the button stays disabled; on failure it logs, stays
    on the page and re-enables the button. *)
Theorem handleStart_effect (r : outcome unit) (st : SelectState) :
  let st' := snd (handleStart r st) in
  selected st' = selected st /\
  match r with
  | Resolved _ => navigated st' = Some "/dashboard" /\ starting st' = true
  | Rejected _ => navigated st' = navigated st /\ starting st' = false
  end.
Proof. destruct r; repeat split. Qed.

Import ChartPage.

(** The Total P&L figure is coloured as profit exactly when the value
    is at least 0 and as loss exactly when it is below 0; it is never
    shown in the neutral colour. *)
Theorem pnlColor_sign (x : Q) :
  (pnlColor x = "text-profit" <-> (0 <= x)%Q) /\
  (pnlColor x = "text-loss" <-> (x < 0)%Q) /\
  pnlColor x <> "text-text-primary".
Proof.
  unfold pnlColor, valueColor.
  destruct (Qle_bool 0 x) eqn:E; simpl.
  - apply Qle_bool_iff in E.
    split; [split; [intros _; exact E | reflexivity] |].
    split; [split; [discriminate | intro H; exfalso; apply (Qlt_not_le _ _ H E)] |].
    discriminate.
  - assert (Hn : ~ (0 <= x)%Q) by (intro H; apply Qle_bool_iff in H; congruence).
    split; [split; [discriminate | intro H; contradiction] |].
    split; [split; [intros _; apply Qnot_le_lt; exact Hn | reflexivity] |].
    discriminate.
Qed.

(** The portfolio chart plots the backend's series unchanged when it is
    not empty; otherwise the synthetic series: 24 hourly points whose
    last value is the portfolio's total value. *)
Theorem chartSeries_choice (num : Type)
    (add mul sub div : num -> num -> num) (math_round : num -> num)
    (c0_95 c0_45 c10 c100 : num) (rand : nat -> num)
    (chartData : list (string * num)) (total_value : num) :
  let d := chartSeries num add mul sub div math_round c0_95 c0_45 c10 c100
             rand chartData total_value in
  match chartData with
  | [] => length d = 24 /\ map fst d = hour_labels /\
          nth_error (map snd d) 23 = Some total_value
  | _ => d = chartData
  end.
Proof. destruct chartData; [repeat split | reflexivity]. Qed.
